(** * The request executor and its error normalisation

    A shallow embedding of [src/errors/errorCode.ts], [src/errors/ApiError.ts]
    and [src/api/fetcher.ts], with the properties the specification states
    about them, followed by their callers [src/api/httpClient.ts],
    [src/api/example.ts] and the button handler of [src/App.tsx].

    Conventions of the embedding:
    - a JavaScript [number] that holds an HTTP status is an integer, [Z];
    - a JavaScript string is a [string] holding its UTF-8 bytes;
    - a plain object is an association list in own-property order; request
      headers are the plain record of header names and values of the
      specification's request descriptor, a [gmap string string];
    - an [async] function is a computation in the monad [Eff]: it completes
      normally or abruptly (a rejected promise, a [throw]) and leaves the
      list of the host operations it performed;
    - a conversion or a constructor that can throw a TypeError is a
      function into [option]. *)

From Stdlib Require Import Ascii String.
From stdpp Require Import base option list strings pretty gmap.

Set Warnings "-register-all".

Open Scope Z_scope.
Open Scope string_scope.

(** ** JavaScript values handled by the wrapper *)

Module Js.

(** [Number.isSafeInteger]: the integers every one of which is a number of
    its own and prints in plain decimal. *)
Definition isSafeInteger (n : Z) : bool := (Z.abs n <? 2 ^ 53)%Z.

(** The values JSON can carry, plus [undefined]: what a response body
    decodes to and what a JSON-serializable request body holds. Numbers
    are restricted to the safe integers; none of these values is a
    function. *)
Inductive jsval : Type :=
| JUndefined
| JNull
| JBool (b : bool)
| JNum (n : Z) (safe : isSafeInteger n = true)
| JStr (s : string)
| JArr (items : list jsval)
| JObj (props : list (string * jsval)).

(** A safe integer given by its numeral. *)
Abbreviation JInt n := (JNum n eq_refl).

(** The left operand of [??] is kept unless it is [null] or [undefined]. *)
Definition nullish (v : jsval) : bool :=
  match v with
  | JUndefined | JNull => true
  | _ => false
  end.

(** [a ?? b], with [inj] the use made of a kept left operand. *)
Definition coalesce {A} (a : jsval) (inj : jsval -> A) (b : A) : A :=
  if nullish a then b else inj a.

(** Whether a plain object has an own property of that name. *)
Definition has_own (key : string) (props : list (string * jsval)) : bool :=
  existsb (fun kv => String.eqb (fst kv) key) props.

(** The abstract operation ToString, which the [Error] constructor applies
    to a message that is not [undefined]; [None] is the TypeError
    "Cannot convert object to primitive value".

    A plain object is converted by OrdinaryToPrimitive, which calls its
    [toString] and then its [valueOf]. Without own members of these names
    it inherits [Object.prototype.toString], which answers
    "[object Object]". An own [toString] member is data, not a function,
    so it is skipped; [valueOf], own or inherited, then yields no
    primitive, and the conversion throws. An array is converted by
    [Array.prototype.join], which converts its elements in order, [null]
    and [undefined] to the empty text, and throws where one of them
    throws. *)
Fixpoint ToString (v : jsval) : option string :=
  match v with
  | JUndefined => Some "undefined"
  | JNull => Some "null"
  | JBool true => Some "true"
  | JBool false => Some "false"
  | JNum n _ => Some (pretty n)
  | JStr s => Some s
  | JArr items =>
      (fix join (l : list jsval) : option string :=
         match l with
         | [] => Some ""
         | x :: rest =>
             match (if nullish x then Some "" else ToString x) with
             | None => None
             | Some t =>
                 match rest with
                 | [] => Some t
                 | _ =>
                     match join rest with
                     | Some u => Some (t +:+ "," +:+ u)
                     | None => None
                     end
                 end
             end
         end) items
  | JObj props =>
      if has_own "toString" props then None else Some "[object Object]"
  end.

(** Own-property lookup of a plain object. *)
Fixpoint assoc (key : string) (props : list (string * jsval)) : jsval :=
  match props with
  | [] => JUndefined
  | (k, v) :: rest => if String.eqb k key then v else assoc key rest
  end.

(** [v.key] for a key that no prototype defines ([message], [error]):
    [None] is the TypeError that reading a property of [null] or
    [undefined] raises. *)
Definition get_prop (v : jsval) (key : string) : option jsval :=
  match v with
  | JUndefined | JNull => None
  | JObj props => Some (assoc key props)
  | _ => Some JUndefined
  end.

(** *** JSON.stringify without indentation *)

Definition hex_digit (n : N) : ascii :=
  match String.get (N.to_nat n) "0123456789abcdef" with
  | Some c => c
  | None => "f"%char
  end.

(** QuoteJSONString, one UTF-8 byte at a time: bytes below 0x20 are
    always whole characters. *)
Definition quote_char (c : ascii) : string :=
  let n := N_of_ascii c in
  if (n =? 8)%N then "\b"
  else if (n =? 9)%N then "\t"
  else if (n =? 10)%N then "\n"
  else if (n =? 12)%N then "\f"
  else if (n =? 13)%N then "\r"
  else if (n =? 34)%N then "\" +:+ String c ""
  else if (n =? 92)%N then "\\"
  else if (n <? 32)%N then
    "\u00" +:+ String (hex_digit (n / 16)) (String (hex_digit (n mod 16)) "")
  else String c "".

Fixpoint quote_body (s : string) : string :=
  match s with
  | EmptyString => ""
  | String c rest => quote_char c +:+ quote_body rest
  end.

Definition dquote : string := String (ascii_of_N 34) "".

Definition QuoteJSONString (s : string) : string :=
  dquote +:+ quote_body s +:+ dquote.

Definition join_comma (parts : list string) : string :=
  String.concat "," parts.

(** SerializeJSONProperty: [None] is [undefined], for which an object
    drops the member and an array writes [null]. *)
Fixpoint stringify_value (v : jsval) : option string :=
  match v with
  | JUndefined => None
  | JNull => Some "null"
  | JBool true => Some "true"
  | JBool false => Some "false"
  | JNum n _ => Some (pretty n)
  | JStr s => Some (QuoteJSONString s)
  | JArr items =>
      Some ("[" +:+
            join_comma
              ((fix elems (l : list jsval) : list string :=
                  match l with
                  | [] => []
                  | x :: rest =>
                      match stringify_value x with
                      | Some t => t
                      | None => "null"
                      end :: elems rest
                  end) items)
            +:+ "]")
  | JObj props =>
      Some ("{" +:+
            join_comma
              ((fix members (l : list (string * jsval)) : list string :=
                  match l with
                  | [] => []
                  | (k, x) :: rest =>
                      match stringify_value x with
                      | Some t => (QuoteJSONString k +:+ ":" +:+ t) :: members rest
                      | None => members rest
                      end
                  end) props)
            +:+ "}")
  end.

(** [JSON.stringify] of a plain object, which always yields text. *)
Definition JSON_stringify (props : list (string * jsval)) : string :=
  match stringify_value (JObj props) with
  | Some t => t
  | None => "undefined"
  end.

End Js.

(** ** errorCode.ts *)

Module errorCode.

Definition HTTP_ERROR_CODE : list (string * Z) :=
  [ ("BAD_REQUEST", 400);
    ("UNAUTHORIZED", 401);
    ("FORBIDDEN", 403);
    ("NOT_FOUND", 404);
    ("INTERNAL_SERVER_ERROR", 500) ].

Definition code_of (key : string) : Z :=
  match List.find (fun kv => String.eqb (fst kv) key) HTTP_ERROR_CODE with
  | Some kv => snd kv
  | None => 0
  end.

(** The record is keyed by the values of [HTTP_ERROR_CODE]. *)
Definition HTTP_ERROR_MESSAGE : gmap Z string :=
  list_to_map
    [ (code_of "BAD_REQUEST", "잘못된 요청입니다.");
      (code_of "UNAUTHORIZED", "인증이 필요합니다.");
      (code_of "FORBIDDEN", "접근 권한이 없습니다.");
      (code_of "NOT_FOUND", "요청한 리소스를 찾을 수 없습니다.");
      (code_of "INTERNAL_SERVER_ERROR", "서버 오류가 발생했습니다.") ].

Definition Object_values {A} (o : list (string * A)) : list A := map snd o.

(** [Array.prototype.includes] on numbers. *)
Definition includes (l : list Z) (x : Z) : bool := existsb (Z.eqb x) l.

Definition isKnownErrorCode (status : Z) : bool :=
  includes (Object_values HTTP_ERROR_CODE) status.

End errorCode.

(** ** ApiError.ts *)

Module ApiError.
Import Js errorCode.

Module Options.
(** [message] is typed [string | undefined]; at run time it holds
    whatever the caller extracted, so it is a [jsval] here. *)
Record t : Type := mk { status : Z; message : jsval; endpoint : option string }.
End Options.

Record ApiError : Type := mkApiError {
  name : string;
  message : string;
  status : Z;
  errorCode : option Z;
  endpoint : option string
}.

(** A key missing from the table would read as [undefined], which the
    [Error] constructor turns into the empty message. *)
Definition getDefaultMessage (status : Z) : string :=
  if isKnownErrorCode status then
    default "" (HTTP_ERROR_MESSAGE !! status)
  else
    "알 수 없는 오류가 발생했습니다. (status: " +:+ pretty status +:+ ")".

(** [new ApiError(o)]; [None] is the TypeError that [super(errorMessage)]
    throws when the message does not convert to a string, in which case no
    error object comes to be. *)
Definition new (o : Options.t) : option ApiError :=
  match
    coalesce (Options.message o) ToString
      (Some (getDefaultMessage (Options.status o)))
  with
  | Some errorMessage =>
      Some {| name := "ApiError";
              message := errorMessage;
              status := Options.status o;
              errorCode :=
                if isKnownErrorCode (Options.status o)
                then Some (Options.status o) else None;
              endpoint := Options.endpoint o |}
  | None => None
  end.

Definition isStatus (this : ApiError) (code : Z) : bool :=
  (status this =? code)%Z.

Definition isAuthError (this : ApiError) : bool :=
  ((status this =? 401) || (status this =? 403))%Z.

Definition isClientError (this : ApiError) : bool :=
  ((400 <=? status this) && (status this <? 500))%Z.

Definition isServerError (this : ApiError) : bool :=
  ((500 <=? status this) && (status this <? 600))%Z.

End ApiError.

(** ** The host: fetch, Response and the completion of async calls *)

Module Host.
Import Js.

(** A multipart payload, opaque to the wrapper. *)
Inductive FormData : Type := mkFormData (entries : list (string * string)).

Inductive BodyInit : Type :=
| BodyText (text : string)
| BodyForm (fd : FormData).

Module RequestInit.
(** [rest] stands for the members the wrapper passes through untouched
    (mode, credentials, ...). *)
Record t : Type := mk {
  method : option string;
  rest : gmap string jsval;
  headers : gmap string string;
  body : option BodyInit
}.
End RequestInit.

(** What a [catch] clause can receive: an [ApiError], another instance of
    [Error] (TypeError, SyntaxError, ...), or any other thrown value. *)
Inductive thrown : Type :=
| ThrownApiError (e : ApiError.ApiError)
| ThrownError (message : string)
| ThrownValue (v : jsval).

(** [error instanceof Error], giving [error.message] when it holds. *)
Definition instanceof_Error (error : thrown) : option string :=
  match error with
  | ThrownApiError e => Some (ApiError.message e)
  | ThrownError message => Some message
  | ThrownValue _ => None
  end.

Inductive completion (A : Type) : Type :=
| Normal (a : A)
| Abrupt (x : thrown).
Arguments Normal {A} a.
Arguments Abrupt {A} x.

Module Response.
(** [json] is what [response.json()] settles to. *)
Record t : Type := mk { ok : bool; status : Z; json : completion jsval }.
End Response.

Inductive event : Type :=
| Fetch (endpoint : string) (init : RequestInit.t)
| ReadJson.

(** An async computation: how it completes and what it asked of the host. *)
Definition Eff (A : Type) : Type := completion A * list event.

Definition outcome {A} (m : Eff A) : completion A := fst m.
Definition trace {A} (m : Eff A) : list event := snd m.

Definition throw {A} (x : thrown) : Eff A := (Abrupt x, []).

Definition perform {A} (ev : event) (c : completion A) : Eff A := (c, [ev]).

(** The TypeError of a conversion to string that yields no primitive, with
    the message V8 gives it. *)
Definition TypeError_not_primitive : thrown :=
  ThrownError "Cannot convert object to primitive value".

(** [throw new ApiError(o)]: what is thrown is the new error, or the
    TypeError of its constructor. *)
Definition throw_new_ApiError {A} (o : ApiError.Options.t) : Eff A :=
  match ApiError.new o with
  | Some e => throw (ThrownApiError e)
  | None => throw TypeError_not_primitive
  end.

#[export] Instance Eff_ret : MRet Eff := fun A a => (Normal a, []).

#[export] Instance Eff_bind : MBind Eff := fun A B f m =>
  match m with
  | (Normal a, t) => let '(c, t') := f a in (c, (t ++ t')%list)
  | (Abrupt x, t) => (Abrupt x, t)
  end.

(** [try { m } catch (error) { handler error }] *)
Definition try_catch {A} (m : Eff A) (handler : thrown -> Eff A) : Eff A :=
  match m with
  | (Abrupt x, t) => let '(c, t') := handler x in (c, (t ++ t')%list)
  | normal => normal
  end.

(** Reading a property, a TypeError on [null] and [undefined]. *)
Definition read_prop (v : jsval) (key : string) : Eff jsval :=
  match get_prop v key with
  | Some x => mret x
  | None => throw (ThrownError "Cannot read properties of null or undefined")
  end.

Definition Response_json (response : Response.t) : Eff jsval :=
  perform ReadJson (Response.json response).

End Host.

(** ** types/api.ts *)

Module api.
Import Js Host.

Inductive RequestBody : Type :=
| JsonBody (props : list (string * jsval))
| FormDataBody (fd : FormData).

Module RequestOptions.
Record t : Type := mk {
  method : option string;
  rest : gmap string jsval;
  headers : option (gmap string string);
  body : option RequestBody
}.
(** The default argument [{}]. *)
Definition empty : t := mk None ∅ None None.
End RequestOptions.

End api.

(** ** fetcher.ts *)

Module fetcher.
Import Js Host api.

Definition DEFAULT_HEADERS : gmap string string :=
  {[ "Content-Type" := "application/json" ]}.

(** An object and a [FormData] are both truthy: [!body] is [undefined]. *)
Definition serializeBody (body : option RequestBody) : option BodyInit :=
  match body with
  | None => None
  | Some (FormDataBody fd) => Some (BodyForm fd)
  | Some (JsonBody props) => Some (BodyText (JSON_stringify props))
  end.

(** [{ ...a, ...b }]: the members of [b] replace those of [a]. *)
Definition spread (a b : gmap string string) : gmap string string := b ∪ a.

Definition createHeaders (customHeaders : option (gmap string string))
    (body : option RequestBody) : gmap string string :=
  match body with
  | Some (FormDataBody _) => spread ∅ (default ∅ customHeaders)
  | _ => spread DEFAULT_HEADERS (default ∅ customHeaders)
  end.

Definition extractErrorMessage (response : Response.t) : Eff jsval :=
  try_catch
    (errorBody ← Response_json response;
     message ← read_prop errorBody "message";
     coalesce message mret (read_prop errorBody "error"))
    (fun _ => mret JUndefined).

Definition fetchOptions (options : RequestOptions.t) : RequestInit.t :=
  let body := RequestOptions.body options in
  let customHeaders := RequestOptions.headers options in
  {| RequestInit.method := RequestOptions.method options;
     RequestInit.rest := RequestOptions.rest options;
     RequestInit.headers := createHeaders customHeaders body;
     RequestInit.body := serializeBody body |}.

Section WithTransport.
(** The global [fetch]: the promise it returns is fulfilled with a
    response or rejected. *)
Variable fetch : string -> RequestInit.t -> completion Response.t.

Definition await_fetch (endpoint : string) (init : RequestInit.t) : Eff Response.t :=
  perform (Fetch endpoint init) (fetch endpoint init).

Definition fetcher (endpoint : string) (options : option RequestOptions.t)
    : Eff jsval :=
  let options := default RequestOptions.empty options in
  response ←
    try_catch (await_fetch endpoint (fetchOptions options))
      (fun error =>
         throw_new_ApiError
           {| ApiError.Options.status := 0;
              ApiError.Options.message :=
                match instanceof_Error error with
                | Some message => JStr ("네트워크 오류: " +:+ message)
                | None => JStr "네트워크 오류가 발생했습니다."
                end;
              ApiError.Options.endpoint := Some endpoint |});
  if negb (Response.ok response) then
    errorMessage ← extractErrorMessage response;
    throw_new_ApiError
      {| ApiError.Options.status := Response.status response;
         ApiError.Options.message := errorMessage;
         ApiError.Options.endpoint := Some endpoint |}
  else if (Response.status response =? 204)%Z then
    mret JUndefined
  else
    try_catch (Response_json response)
      (fun _ =>
         throw_new_ApiError
           {| ApiError.Options.status := Response.status response;
              ApiError.Options.message := JStr "응답을 파싱할 수 없습니다.";
              ApiError.Options.endpoint := Some endpoint |}).

End WithTransport.

End fetcher.

(** ** The vocabulary of the specification *)

Module Spec.
Import Js Host api.

(** The Known Error Code enumeration. *)
Definition known_codes : list Z := [400; 401; 403; 404; 500].

(** The Known Error Code Table, as the specification fixes it. *)
Definition table_default (s : Z) : option string :=
  if (s =? 400)%Z then Some "잘못된 요청입니다."
  else if (s =? 401)%Z then Some "인증이 필요합니다."
  else if (s =? 403)%Z then Some "접근 권한이 없습니다."
  else if (s =? 404)%Z then Some "요청한 리소스를 찾을 수 없습니다."
  else if (s =? 500)%Z then Some "서버 오류가 발생했습니다."
  else None.

(** The generic "unknown error (status: <code>)" message. *)
Definition generic_message (s : Z) : string :=
  "알 수 없는 오류가 발생했습니다. (status: " +:+ pretty s +:+ ")".

(** Table default if the status is known, else the generic message. *)
Definition fallback_message (s : Z) : string :=
  match table_default s with
  | Some text => text
  | None => generic_message s
  end.

(** [sub] occurs inside [s]. *)
Definition contains (sub s : string) : Prop :=
  exists pre post, s = pre +:+ sub +:+ post.

(** What the extraction hands to the constructor: for a decoded object
    its [message] member, or its [error] member when the former is [null]
    or left out; [undefined] for any other body and for one that does not
    decode. *)
Definition extracted (r : Response.t) : jsval :=
  match Response.json r with
  | Normal (JObj props) =>
      match assoc "message" props with
      | JUndefined | JNull => assoc "error" props
      | m => m
      end
  | _ => JUndefined
  end.

(** A member as [ServerErrorResponse] expects it: a string, or nothing. *)
Definition string_or_nothing (v : jsval) : bool :=
  match v with
  | JStr _ | JUndefined | JNull => true
  | _ => false
  end.

(** The body of the response has the expected shape when, being a decoded
    object, its [message] and [error] members are strings or nothing. *)
Definition as_expected (r : Response.t) : bool :=
  match Response.json r with
  | Normal (JObj props) =>
      string_or_nothing (assoc "message" props)
      && string_or_nothing (assoc "error" props)
  | _ => true
  end.

(** The string held by the named member of the response's JSON body. *)
Definition text_member (r : Response.t) (key : string) : option string :=
  match Response.json r with
  | Normal (JObj props) =>
      match assoc key props with
      | JStr text => Some text
      | _ => None
      end
  | _ => None
  end.

(** The message priority of a failed response: [message] member, else
    [error] member, else table default, else generic. *)
Definition error_message (r : Response.t) : string :=
  match text_member r "message" with
  | Some text => text
  | None =>
      match text_member r "error" with
      | Some text => text
      | None => fallback_message (Response.status r)
      end
  end.

(** What the transport answers to the request a call makes. *)
Definition transport
    (fetch : string -> RequestInit.t -> completion Response.t)
    (endpoint : string) (options : option RequestOptions.t)
    : completion Response.t :=
  fetch endpoint (fetcher.fetchOptions (default RequestOptions.empty options)).

(** The three outcomes of a call. *)
Definition returns_parsed (r : completion Response.t) (res : completion jsval) : Prop :=
  exists response v,
    r = Normal response /\ Response.ok response = true /\
    Response.status response <> 204 /\
    Response.json response = Normal v /\ res = Normal v.

Definition returns_absent (r : completion Response.t) (res : completion jsval) : Prop :=
  exists response,
    r = Normal response /\ Response.ok response = true /\
    Response.status response = 204 /\ res = Normal JUndefined.

Definition raises_structured (res : completion jsval) : Prop :=
  exists e, res = Abrupt (ThrownApiError e).

(** The request handed to the transport, if the call reached it. *)
Definition transmitted {A} (m : Eff A) : option RequestInit.t :=
  match trace m with
  | Fetch _ init :: _ => Some init
  | _ => None
  end.

End Spec.

(** ** Scenarios of the test suite (fetcher.test.ts) *)

Module Scenarios.
Import Js Host api.

(** [mockFetch.mockResolvedValueOnce(response)] *)
Definition resolves (response : Response.t)
    : string -> RequestInit.t -> completion Response.t :=
  fun _ _ => Normal response.

(** [mockFetch.mockRejectedValueOnce(error)] *)
Definition rejects (error : thrown)
    : string -> RequestInit.t -> completion Response.t :=
  fun _ _ => Abrupt error.

Definition user_ok : Response.t :=
  Response.mk true 200 (Normal (JObj [("id", JInt 1); ("name", JStr "Test User")])).

Definition no_content : Response.t :=
  Response.mk true 204 (Abrupt (ThrownError "response.json is not a function")).

Definition not_found : Response.t :=
  Response.mk false 404 (Normal (JObj [("error", JStr "리소스를 찾을 수 없습니다.")])).

Definition bad_request_unparsable : Response.t :=
  Response.mk false 400 (Abrupt (ThrownError "Invalid JSON")).

Definition empty_message : Response.t :=
  Response.mk false 400
    (Normal (JObj [("message", JStr ""); ("error", JStr "ignored")])).


(** A failed response whose [message] is an object with a member named
    [toString]: the body [{"message":{"toString":1}}]. *)
Definition message_with_own_toString : Response.t :=
  Response.mk false 400
    (Normal (JObj [("message", JObj [("toString", JInt 1)])])).

Definition post_user : RequestOptions.t :=
  RequestOptions.mk (Some "POST") ∅ None
    (Some (JsonBody [("name", JStr "New User"); ("email", JStr "test@example.com")])).

End Scenarios.

(** ** httpClient.ts *)

Module httpClient.
Import Js Host api fetcher.

Record HttpClientConfig : Type := mkConfig {
  baseURL : string;
  defaultHeaders : option (gmap string string)
}.

Module ClientOptions.
(** [Omit<RequestOptions, 'method' | 'body'>] *)
Record t : Type := mk {
  rest : gmap string jsval;
  headers : option (gmap string string)
}.
End ClientOptions.

(** [s.startsWith(p)] *)
Definition startsWith (s p : string) : bool := String.prefix p s.

(** [s.replace(/\/$/, '')]: without the [m] flag, [$] is the end of the
    input, so one final slash goes and nothing else. *)
Fixpoint strip_trailing_slash (s : string) : string :=
  match s with
  | EmptyString => EmptyString
  | String c rest =>
      if Ascii.eqb c "/" && String.eqb rest "" then EmptyString
      else String c (strip_trailing_slash rest)
  end.

(** [{ ...options }] without [headers], and [options?.headers]. *)
Definition rest_of (options : option ClientOptions.t) : gmap string jsval :=
  match options with
  | Some o => ClientOptions.rest o
  | None => ∅
  end.

Definition headers_of (options : option ClientOptions.t)
    : option (gmap string string) :=
  match options with
  | Some o => ClientOptions.headers o
  | None => None
  end.

Section createHttpClient.
Variable fetch : string -> RequestInit.t -> completion Response.t.
Variable config : HttpClientConfig.

Definition buildURL (endpoint : string) : string :=
  if startsWith endpoint "http://" || startsWith endpoint "https://" then
    endpoint
  else
    let base := strip_trailing_slash (baseURL config) in
    let path := if startsWith endpoint "/" then endpoint else "/" +:+ endpoint in
    base +:+ path.

Definition mergeHeaders (customHeaders : option (gmap string string))
    : gmap string string :=
  spread (default ∅ (defaultHeaders config)) (default ∅ customHeaders).

(** The body is one of the two shapes the executor accepts. *)
Definition toRequestBody (body : option RequestBody) : option RequestBody :=
  match body with
  | None => body
  | Some (FormDataBody _) => body
  | Some (JsonBody props) => Some (JsonBody props)
  end.

Definition get (endpoint : string) (options : option ClientOptions.t) : Eff jsval :=
  fetcher fetch (buildURL endpoint)
    (Some {| RequestOptions.method := Some "GET";
             RequestOptions.rest := rest_of options;
             RequestOptions.headers := Some (mergeHeaders (headers_of options));
             RequestOptions.body := None |}).

Definition post (endpoint : string) (body : option RequestBody)
    (options : option ClientOptions.t) : Eff jsval :=
  fetcher fetch (buildURL endpoint)
    (Some {| RequestOptions.method := Some "POST";
             RequestOptions.rest := rest_of options;
             RequestOptions.headers := Some (mergeHeaders (headers_of options));
             RequestOptions.body := toRequestBody body |}).

Definition put (endpoint : string) (body : option RequestBody)
    (options : option ClientOptions.t) : Eff jsval :=
  fetcher fetch (buildURL endpoint)
    (Some {| RequestOptions.method := Some "PUT";
             RequestOptions.rest := rest_of options;
             RequestOptions.headers := Some (mergeHeaders (headers_of options));
             RequestOptions.body := toRequestBody body |}).

Definition patch (endpoint : string) (body : option RequestBody)
    (options : option ClientOptions.t) : Eff jsval :=
  fetcher fetch (buildURL endpoint)
    (Some {| RequestOptions.method := Some "PATCH";
             RequestOptions.rest := rest_of options;
             RequestOptions.headers := Some (mergeHeaders (headers_of options));
             RequestOptions.body := toRequestBody body |}).

(** The client's [delete] method. *)
Definition delete_ (endpoint : string) (options : option ClientOptions.t) : Eff jsval :=
  fetcher fetch (buildURL endpoint)
    (Some {| RequestOptions.method := Some "DELETE";
             RequestOptions.rest := rest_of options;
             RequestOptions.headers := Some (mergeHeaders (headers_of options));
             RequestOptions.body := None |}).

End createHttpClient.

(** [createHttpClient({ baseURL: import.meta.env.VITE_API_BASE_URL ?? '/api' })],
    the environment variable being a string or not set. *)
Definition apiClient (VITE_API_BASE_URL : option string) : HttpClientConfig :=
  {| baseURL := default "/api" VITE_API_BASE_URL; defaultHeaders := None |}.

End httpClient.

(** ** example.ts *)

Module example.
Import Js Host api.

Section WithEnvironment.
Variable fetch : string -> RequestInit.t -> completion Response.t.
Variable VITE_API_BASE_URL : option string.

Definition getUsers : Eff jsval :=
  httpClient.get fetch (httpClient.apiClient VITE_API_BASE_URL) "/users" None.

Definition getUser (id : Z) : Eff jsval :=
  httpClient.get fetch (httpClient.apiClient VITE_API_BASE_URL)
    ("/users/" +:+ pretty id) None.

(** [data] is the object passed as [CreateUserRequest]. *)
Definition createUser (data : list (string * jsval)) : Eff jsval :=
  httpClient.post fetch (httpClient.apiClient VITE_API_BASE_URL)
    "/users" (Some (JsonBody data)) None.

Definition updateUser (id : Z) (data : list (string * jsval)) : Eff jsval :=
  httpClient.patch fetch (httpClient.apiClient VITE_API_BASE_URL)
    ("/users/" +:+ pretty id) (Some (JsonBody data)) None.

Definition deleteUser (id : Z) : Eff jsval :=
  httpClient.delete_ fetch (httpClient.apiClient VITE_API_BASE_URL)
    ("/users/" +:+ pretty id) None.

End WithEnvironment.

End example.

(** ** App.tsx: the handler of the fetch button *)

Module App.
Import Js Host.






Section WithEnvironment.
Variable fetch : string -> RequestInit.t -> completion Response.t.
Variable VITE_API_BASE_URL : option string.


End WithEnvironment.

End App.

(** * Properties *)

Import Js errorCode Host api fetcher Spec.

(** ** The error code table *)

Lemma isKnownErrorCode_spec (s : Z) :
  isKnownErrorCode s = true <-> s = 400 \/ s = 401 \/ s = 403 \/ s = 404 \/ s = 500.
Proof.
  unfold isKnownErrorCode, includes, Object_values; simpl.
  rewrite !orb_true_iff, !Z.eqb_eq. intuition discriminate.
Qed.

Lemma isKnownErrorCode_elem (s : Z) :
  isKnownErrorCode s = true <-> s ∈ known_codes.
Proof.
  rewrite isKnownErrorCode_spec. unfold known_codes.
  rewrite !elem_of_cons, elem_of_nil. tauto.
Qed.

Lemma getDefaultMessage_fallback (s : Z) :
  ApiError.getDefaultMessage s = fallback_message s.
Proof.
  unfold ApiError.getDefaultMessage, fallback_message, table_default.
  destruct (isKnownErrorCode s) eqn:K.
  - apply isKnownErrorCode_spec in K.
    destruct K as [-> | [-> | [-> | [-> | ->]]]]; reflexivity.
  - assert (N : ~ (s = 400 \/ s = 401 \/ s = 403 \/ s = 404 \/ s = 500)).
    { rewrite <- isKnownErrorCode_spec. congruence. }
    repeat match goal with
           | |- context [(s =? ?k)%Z] =>
               destruct (Z.eqb_spec s k); [exfalso; apply N; tauto |]
           end.
    reflexivity.
Qed.


Lemma generic_message_contains (s : Z) : contains (pretty s) (generic_message s).
Proof.
  exists "알 수 없는 오류가 발생했습니다. (status: ", ")". reflexivity.
Qed.

(** ** The constructor *)

Lemma new_unfold (s : Z) (m : jsval) (endpoint : option string) :
  ApiError.new (ApiError.Options.mk s m endpoint)
  = match (if nullish m then Some (fallback_message s) else ToString m) with
    | Some text =>
        Some (ApiError.mkApiError "ApiError" text s
                (if isKnownErrorCode s then Some s else None) endpoint)
    | None => None
    end.
Proof.
  unfold ApiError.new, coalesce. simpl.
  rewrite getDefaultMessage_fallback. reflexivity.
Qed.

Lemma new_text (s : Z) (text : string) (endpoint : option string) :
  ApiError.new (ApiError.Options.mk s (JStr text) endpoint)
  = Some (ApiError.mkApiError "ApiError" text s
            (if isKnownErrorCode s then Some s else None) endpoint).
Proof. apply new_unfold. Qed.

Lemma new_default (s : Z) (m : jsval) (endpoint : option string) :
  nullish m = true ->
  ApiError.new (ApiError.Options.mk s m endpoint)
  = Some (ApiError.mkApiError "ApiError" (fallback_message s) s
            (if isKnownErrorCode s then Some s else None) endpoint).
Proof. intros N. rewrite new_unfold, N. reflexivity. Qed.

Lemma new_some (o : ApiError.Options.t) (e : ApiError.ApiError) :
  ApiError.new o = Some e ->
  ApiError.name e = "ApiError" /\
  ApiError.status e = ApiError.Options.status o /\
  ApiError.endpoint e = ApiError.Options.endpoint o /\
  ApiError.errorCode e =
    (if isKnownErrorCode (ApiError.Options.status o)
     then Some (ApiError.Options.status o) else None).
Proof.
  destruct o as [s m endpoint]. rewrite new_unfold.
  destruct (if nullish m then _ else _); [| discriminate].
  intros [= <-]. repeat split.
Qed.

Lemma new_none (s : Z) (m : jsval) (endpoint : option string) :
  ApiError.new (ApiError.Options.mk s m endpoint) = None <-> ToString m = None.
Proof.
  rewrite new_unfold. destruct (nullish m) eqn:N.
  - destruct m; try discriminate; simpl; split; discriminate.
  - destruct (ToString m); split; congruence.
Qed.

(** ** Classification *)

(** C6. The classification predicates depend on the status code alone:
    [isAuthError] holds exactly for 401 and 403 (so not for 0),
    [isClientError] exactly on [400, 500), [isServerError] exactly on
    [500, 600), and [isStatus code] exactly when the status is [code]. *)
Theorem classification_by_status (e : ApiError.ApiError) (code : Z) :
  (ApiError.isAuthError e = true <->
     ApiError.status e = 401 \/ ApiError.status e = 403) /\
  (ApiError.status e = 0 -> ApiError.isAuthError e = false) /\
  (ApiError.isClientError e = true <-> 400 <= ApiError.status e < 500) /\
  (ApiError.isServerError e = true <-> 500 <= ApiError.status e < 600) /\
  (ApiError.isStatus e code = true <-> ApiError.status e = code) /\
  (forall e' : ApiError.ApiError,
     ApiError.status e' = ApiError.status e ->
     ApiError.isAuthError e' = ApiError.isAuthError e /\
     ApiError.isClientError e' = ApiError.isClientError e /\
     ApiError.isServerError e' = ApiError.isServerError e /\
     ApiError.isStatus e' code = ApiError.isStatus e code).
Proof.
  unfold ApiError.isAuthError, ApiError.isClientError, ApiError.isServerError,
    ApiError.isStatus.
  repeat split.
  - rewrite orb_true_iff, !Z.eqb_eq. tauto.
  - rewrite orb_true_iff, !Z.eqb_eq. tauto.
  - intros ->. reflexivity.
  - rewrite andb_true_iff, Z.leb_le, Z.ltb_lt in *. tauto.
  - rewrite andb_true_iff, Z.leb_le, Z.ltb_lt in *. tauto.
  - rewrite andb_true_iff, Z.leb_le, Z.ltb_lt. tauto.
  - rewrite andb_true_iff, Z.leb_le, Z.ltb_lt in *. tauto.
  - rewrite andb_true_iff, Z.leb_le, Z.ltb_lt in *. tauto.
  - rewrite andb_true_iff, Z.leb_le, Z.ltb_lt. tauto.
  - apply Z.eqb_eq.
  - apply Z.eqb_eq.
  - congruence.
  - congruence.
  - congruence.
  - congruence.
Qed.

(** C10. For every status: an auth error is a client error; no error is
    both a client and a server error; and each of the five known codes is a
    client error or a server error. *)
Theorem classification_relations (e : ApiError.ApiError) :
  (ApiError.isAuthError e = true -> ApiError.isClientError e = true) /\
  ~ (ApiError.isClientError e = true /\ ApiError.isServerError e = true) /\
  (isKnownErrorCode (ApiError.status e) = true ->
     ApiError.isClientError e = true \/ ApiError.isServerError e = true).
Proof.
  unfold ApiError.isAuthError, ApiError.isClientError, ApiError.isServerError.
  rewrite isKnownErrorCode_spec.
  rewrite !andb_true_iff, orb_true_iff, !Z.eqb_eq, !Z.leb_le, !Z.ltb_lt.
  lia.
Qed.

(** ** Construction *)

(** C7. An error built for status [s] is tagged with [s] when [s] is one of
    400, 401, 403, 404, 500 and with [null] otherwise; built without a
    message, it carries the table text of a known [s] and otherwise the
    generic message, which embeds the decimal form of [s]. The constructor
    builds an error unless the message given does not convert to a string. *)
Theorem constructor_tag_and_default (s : Z) (endpoint : option string) (m : jsval) :
  (forall e, ApiError.new (ApiError.Options.mk s m endpoint) = Some e ->
     ApiError.errorCode e = (if decide (s ∈ known_codes) then Some s else None)) /\
  (ApiError.new (ApiError.Options.mk s m endpoint) = None <-> ToString m = None) /\
  (exists e,
     ApiError.new (ApiError.Options.mk s JUndefined endpoint) = Some e /\
     ApiError.errorCode e = (if decide (s ∈ known_codes) then Some s else None) /\
     ApiError.message e
       = match table_default s with
         | Some text => text
         | None => generic_message s
         end) /\
  (s ∈ known_codes <-> is_Some (table_default s)) /\
  contains (pretty s) (generic_message s).
Proof.
  assert (T : (if isKnownErrorCode s then Some s else None)
              = (if decide (s ∈ known_codes) then Some s else None)).
  { destruct (isKnownErrorCode s) eqn:K.
    - apply isKnownErrorCode_elem in K. rewrite decide_True; done.
    - rewrite decide_False; [done |].
      rewrite <- isKnownErrorCode_elem. congruence. }
  split; [| split; [| split; [| split]]].
  - intros e E. apply new_some in E as (_ & _ & _ & C). rewrite C. exact T.
  - apply new_none.
  - eexists. split; [apply new_default; reflexivity |].
    split; [exact T | reflexivity].
  - rewrite <- isKnownErrorCode_elem, isKnownErrorCode_spec. unfold table_default.
    split.
    + intros [-> | [-> | [-> | [-> | ->]]]]; simpl; eauto.
    + intros [t Ht].
      repeat match type of Ht with
             | context [(s =? ?k)%Z] =>
                 destruct (Z.eqb_spec s k); [tauto |]
             end.
      discriminate.
  - apply generic_message_contains.
Qed.

(** ** The request executor *)

Section Executor.
Variable fetch : string -> RequestInit.t -> completion Response.t.
Variable endpoint : string.
Variable options : option RequestOptions.t.

Let init : RequestInit.t := fetchOptions (default RequestOptions.empty options).

Lemma fetcher_rejected (x : thrown) :
  transport fetch endpoint options = Abrupt x ->
  fetcher fetch endpoint options =
    (Abrupt (ThrownApiError
       (ApiError.mkApiError "ApiError"
          match instanceof_Error x with
          | Some message => "네트워크 오류: " +:+ message
          | None => "네트워크 오류가 발생했습니다."
          end
          0 None (Some endpoint))),
     [Fetch endpoint init]).
Proof.
  unfold transport, fetcher, await_fetch, perform. intros ->. simpl.
  unfold throw_new_ApiError. destruct (instanceof_Error x); reflexivity.
Qed.

Lemma extractErrorMessage_settles (r : Response.t) :
  extractErrorMessage r = (Normal (extracted r), [ReadJson]).
Proof.
  unfold extractErrorMessage, Response_json, perform, extracted.
  destruct (Response.json r) as [decoded | x]; simpl; [| reflexivity].
  destruct decoded as [| | b | n safe | s | items | props]; simpl;
    try reflexivity.
  unfold coalesce. destruct (assoc "message" props); reflexivity.
Qed.

Lemma fetcher_not_ok (r : Response.t) :
  transport fetch endpoint options = Normal r ->
  Response.ok r = false ->
  fetcher fetch endpoint options =
    (match
       ApiError.new
         {| ApiError.Options.status := Response.status r;
            ApiError.Options.message := extracted r;
            ApiError.Options.endpoint := Some endpoint |}
     with
     | Some e => Abrupt (ThrownApiError e)
     | None => Abrupt TypeError_not_primitive
     end,
     [Fetch endpoint init; ReadJson]).
Proof.
  intros T K. unfold transport in T. unfold fetcher, await_fetch, perform.
  rewrite T. simpl. rewrite K. simpl. rewrite extractErrorMessage_settles.
  simpl. unfold throw_new_ApiError. destruct (ApiError.new _); reflexivity.
Qed.

Lemma fetcher_no_content (r : Response.t) :
  transport fetch endpoint options = Normal r ->
  Response.ok r = true ->
  Response.status r = 204 ->
  fetcher fetch endpoint options = (Normal JUndefined, [Fetch endpoint init]).
Proof.
  intros T K S. unfold transport in T. unfold fetcher, await_fetch, perform.
  rewrite T. simpl. rewrite K, S. reflexivity.
Qed.

Lemma fetcher_success (r : Response.t) :
  transport fetch endpoint options = Normal r ->
  Response.ok r = true ->
  Response.status r <> 204 ->
  fetcher fetch endpoint options =
    (match Response.json r with
     | Normal v => Normal v
     | Abrupt _ =>
         Abrupt (ThrownApiError
           (ApiError.mkApiError "ApiError" "응답을 파싱할 수 없습니다."
              (Response.status r)
              (if isKnownErrorCode (Response.status r)
               then Some (Response.status r) else None)
              (Some endpoint)))
     end,
     [Fetch endpoint init; ReadJson]).
Proof.
  intros T K S. unfold transport in T. unfold fetcher, await_fetch, perform.
  rewrite T. simpl. rewrite K. simpl.
  destruct (Z.eqb_spec (Response.status r) 204) as [| _]; [contradiction |].
  unfold Response_json, perform. destruct (Response.json r); reflexivity.
Qed.

Lemma fetcher_transmitted :
  transmitted (fetcher fetch endpoint options) = Some init.
Proof.
  unfold transmitted.
  destruct (transport fetch endpoint options) as [r | x] eqn:T.
  - destruct (Response.ok r) eqn:K.
    + destruct (Z.eq_dec (Response.status r) 204) as [S | S].
      * now rewrite (fetcher_no_content r T K S).
      * now rewrite (fetcher_success r T K S).
    + now rewrite (fetcher_not_ok r T K).
  - now rewrite (fetcher_rejected x T).
Qed.


(** C3. A successful response whose status is not 204 makes the call
    return the decoded body as it is; when the body does not decode, the
    call raises an [ApiError] with the response's status and the
    cannot-parse message. *)
Theorem success_returns_body (r : Response.t) :
  transport fetch endpoint options = Normal r ->
  Response.ok r = true ->
  Response.status r <> 204 ->
  (forall v, Response.json r = Normal v ->
     outcome (fetcher fetch endpoint options) = Normal v) /\
  (forall x, Response.json r = Abrupt x ->
     exists e,
       outcome (fetcher fetch endpoint options) = Abrupt (ThrownApiError e) /\
       ApiError.status e = Response.status r /\
       ApiError.message e = "응답을 파싱할 수 없습니다.").
Proof.
  intros T K S. rewrite (fetcher_success r T K S). split.
  - intros v ->. reflexivity.
  - intros x ->. eexists. repeat split.
Qed.

(** C4. A successful response with status 204 makes the call return
    [undefined], and the body is never read. *)
Theorem no_content_returns_absent (r : Response.t) :
  transport fetch endpoint options = Normal r ->
  Response.ok r = true ->
  Response.status r = 204 ->
  outcome (fetcher fetch endpoint options) = Normal JUndefined /\
  ReadJson ∉ trace (fetcher fetch endpoint options).
Proof.
  intros T K S. rewrite (fetcher_no_content r T K S). split; [reflexivity |].
  simpl. rewrite elem_of_cons, elem_of_nil. intros [? | []]. discriminate.
Qed.

(** C9. A failed response whose JSON body has the empty string as its
    [message] raises an [ApiError] with the empty message, whatever the
    [error] field and the status are. *)
Theorem empty_message_is_present (r : Response.t) (props : list (string * jsval)) :
  transport fetch endpoint options = Normal r ->
  Response.ok r = false ->
  Response.json r = Normal (JObj props) ->
  assoc "message" props = JStr "" ->
  exists e,
    outcome (fetcher fetch endpoint options) = Abrupt (ThrownApiError e) /\
    ApiError.message e = "".
Proof.
  intros T K J M. rewrite (fetcher_not_ok r T K).
  unfold extracted. rewrite J, M, new_text.
  eexists. split; reflexivity.
Qed.

End Executor.

(** ** Body and header resolution *)

Lemma spread_lookup (a b : gmap string string) (k : string) :
  spread a b !! k = match b !! k with Some v => Some v | None => a !! k end.
Proof.
  unfold spread. rewrite lookup_union.
  destruct (b !! k), (a !! k); reflexivity.
Qed.

Lemma spread_empty (b : gmap string string) : spread ∅ b = b.
Proof.
  apply map_eq. intros k. rewrite spread_lookup, lookup_empty.
  destruct (b !! k); reflexivity.
Qed.

(** C5. The request handed to the transport: for a plain mapping its body
    is the JSON text of the mapping and its headers are the default set
    (Content-Type: application/json) overlaid with the caller's headers,
    the caller's value winning on a shared key; for a multipart payload the
    body is the payload itself and the headers are the caller's headers and
    nothing else; without a body, no body is sent. *)
Theorem request_encoding
    (fetch : string -> RequestInit.t -> completion Response.t)
    (endpoint : string) (method : option string) (rest : gmap string jsval)
    (customHeaders : option (gmap string string)) :
  let call body :=
    fetcher fetch endpoint
      (Some (RequestOptions.mk method rest customHeaders body)) in
  let caller : gmap string string := default ∅ customHeaders in
  (forall props, exists init,
     transmitted (call (Some (JsonBody props))) = Some init /\
     RequestInit.body init = Some (BodyText (JSON_stringify props)) /\
     DEFAULT_HEADERS !! "Content-Type" = Some "application/json" /\
     forall k, RequestInit.headers init !! k =
               match caller !! k with
               | Some v => Some v
               | None => DEFAULT_HEADERS !! k
               end) /\
  (forall fd, exists init,
     transmitted (call (Some (FormDataBody fd))) = Some init /\
     RequestInit.body init = Some (BodyForm fd) /\
     RequestInit.headers init = caller) /\
  (exists init,
     transmitted (call None) = Some init /\ RequestInit.body init = None).
Proof.
  intros call caller. subst call. split; [| split].
  - intros props. eexists. split; [apply fetcher_transmitted |].
    split; [reflexivity |]. split; [reflexivity |].
    intros k. simpl. apply spread_lookup.
  - intros fd. eexists. split; [apply fetcher_transmitted |].
    split; [reflexivity |]. simpl. apply spread_empty.
  - eexists. split; [apply fetcher_transmitted | reflexivity].
Qed.

(** ** The scenarios of the test suite, through the theorems *)

Import Scenarios.

(** C1, where the code departs from it. The claim has every response
    with [ok = false] raise an [ApiError]. For the response 400 with the
    body [{"message":{"toString":1}}] the extracted message is an object
    that does not convert to a string, the constructor throws, and the
    call rejects with that TypeError: no [ApiError] is raised. *)
Theorem failed_response_without_structured_error :
  let call := fetcher (resolves message_with_own_toString) "/api/users" None in
  Response.ok message_with_own_toString = false /\
  extracted message_with_own_toString = JObj [("toString", JInt 1)] /\
  ToString (extracted message_with_own_toString) = None /\
  outcome call = Abrupt TypeError_not_primitive /\
  ~ (exists e, outcome call = Abrupt (ThrownApiError e)).
Proof.
  intros call. subst call.
  split; [reflexivity |]. split; [reflexivity |]. split; [reflexivity |].
  split; [reflexivity |]. intros (e & E). vm_compute in E. discriminate.
Qed.

(** C8, where the code departs from it. The claim has every call end by
    returning the decoded body, by returning [undefined] or by raising an
    [ApiError]. The call answered by the response 400 with the body
    [{"message":{"toString":1}}] ends in none of the three: it rejects
    with a TypeError. *)
Theorem call_with_a_fourth_outcome :
  let answer := transport (resolves message_with_own_toString) "/api/users" None in
  let res := outcome (fetcher (resolves message_with_own_toString) "/api/users" None) in
  res = Abrupt TypeError_not_primitive /\
  ~ returns_parsed answer res /\
  ~ returns_absent answer res /\
  ~ raises_structured res.
Proof.
  intros answer res. subst answer res.
  split; [reflexivity |]. split; [| split].
  - intros (r & v & _ & _ & _ & _ & R). vm_compute in R. discriminate.
  - intros (r & _ & _ & _ & R). vm_compute in R. discriminate.
  - intros (e & R). vm_compute in R. discriminate.
Qed.


Lemma success_returns_body_witness :
  outcome (fetcher (resolves user_ok) "/api/users/1" None)
  = Normal (JObj [("id", JInt 1); ("name", JStr "Test User")]).
Proof.
  assert (S : Response.status user_ok <> 204) by (simpl; lia).
  exact (proj1 (success_returns_body (resolves user_ok) "/api/users/1" None
                  user_ok eq_refl eq_refl S) _ eq_refl).
Defined.

Lemma no_content_returns_absent_witness :
  outcome (fetcher (resolves no_content) "/api/users/1"
             (Some (RequestOptions.mk (Some "DELETE") ∅ None None)))
  = Normal JUndefined.
Proof.
  exact (proj1 (no_content_returns_absent (resolves no_content) "/api/users/1"
                  (Some (RequestOptions.mk (Some "DELETE") ∅ None None))
                  no_content eq_refl eq_refl eq_refl)).
Defined.

Lemma empty_message_is_present_witness :
  exists e,
    outcome (fetcher (resolves empty_message) "/api/users" None)
      = Abrupt (ThrownApiError e) /\
    ApiError.message e = "".
Proof.
  exact (empty_message_is_present (resolves empty_message) "/api/users" None
           empty_message [("message", JStr ""); ("error", JStr "ignored")]
           eq_refl eq_refl eq_refl eq_refl).
Defined.

(** The remaining cases of the suite, by evaluation. *)

Example get_user_request :
  fetcher (resolves user_ok) "/api/users/1" None
  = (Normal (JObj [("id", JInt 1); ("name", JStr "Test User")]),
     [Fetch "/api/users/1"
        (RequestInit.mk None ∅ {[ "Content-Type" := "application/json" ]} None);
      ReadJson]).
Proof. vm_compute. reflexivity. Qed.

Example post_user_body :
  RequestInit.body (fetchOptions post_user)
  = Some (BodyText
      ("{" +:+ dquote +:+ "name" +:+ dquote +:+ ":" +:+ dquote +:+ "New User"
           +:+ dquote +:+ "," +:+ dquote +:+ "email" +:+ dquote +:+ ":"
           +:+ dquote +:+ "test@example.com" +:+ dquote +:+ "}")) /\
  RequestInit.headers (fetchOptions post_user) !! "Content-Type"
  = Some "application/json" /\
  RequestInit.method (fetchOptions post_user) = Some "POST".
Proof. repeat split. Qed.

Example custom_headers_are_merged :
  createHeaders (Some {[ "Authorization" := "Bearer token123" ]}) None
  = {[ "Content-Type" := "application/json"; "Authorization" := "Bearer token123" ]}.
Proof. vm_compute. reflexivity. Qed.

Example caller_content_type_wins :
  createHeaders (Some {[ "Content-Type" := "text/plain" ]}) (Some (JsonBody []))
  = {[ "Content-Type" := "text/plain" ]}.
Proof. vm_compute. reflexivity. Qed.

Example form_data_has_no_content_type (fd : FormData) :
  createHeaders None (Some (FormDataBody fd)) !! "Content-Type" = None /\
  serializeBody (Some (FormDataBody fd)) = Some (BodyForm fd).
Proof. split; reflexivity. Qed.

Example unparsable_bad_request :
  outcome (fetcher (resolves bad_request_unparsable) "/api/users" None)
  = Abrupt (ThrownApiError
      (ApiError.mkApiError "ApiError" "잘못된 요청입니다." 400 (Some 400)
         (Some "/api/users"))).
Proof. reflexivity. Qed.

Example rejected_with_a_plain_value :
  outcome (fetcher (rejects (ThrownValue (JStr "aborted"))) "/api/users" None)
  = Abrupt (ThrownApiError
      (ApiError.mkApiError "ApiError" "네트워크 오류가 발생했습니다." 0 None
         (Some "/api/users"))).
Proof. reflexivity. Qed.

Example unknown_status_with_null_body :
  outcome (fetcher (resolves (Response.mk false 418 (Normal JNull))) "/api/tea" None)
  = Abrupt (ThrownApiError
      (ApiError.mkApiError "ApiError"
         "알 수 없는 오류가 발생했습니다. (status: 418)" 418 None (Some "/api/tea"))).
Proof. reflexivity. Qed.

Example stringify_nested :
  JSON_stringify
    [("a", JArr [JInt 1; JUndefined; JStr "x\y"]); ("b", JUndefined); ("c", JObj [])]
  = "{" +:+ dquote +:+ "a" +:+ dquote +:+ ":[1,null," +:+ dquote +:+ "x\\y"
        +:+ dquote +:+ "]," +:+ dquote +:+ "c" +:+ dquote +:+ ":{}}".
Proof. reflexivity. Qed.

(** * Further properties of the code *)

(** ** The executor's use of the host *)

(** X1. A call asks the transport exactly once, first, and reads the body
    at most once; the body is read exactly when a response arrived that is
    not a successful 204. *)
Theorem fetcher_host_calls
    (fetch : string -> RequestInit.t -> completion Response.t)
    (endpoint : string) (options : option RequestOptions.t) :
  let init := fetchOptions (default RequestOptions.empty options) in
  let asked := trace (fetcher fetch endpoint options) in
  (asked = [Fetch endpoint init] \/ asked = [Fetch endpoint init; ReadJson]) /\
  (ReadJson ∈ asked <->
     exists r, transport fetch endpoint options = Normal r /\
               (Response.ok r = false \/ Response.status r <> 204)).
Proof.
  intros init asked. subst init asked.
  destruct (transport fetch endpoint options) as [r | x] eqn:T.
  - destruct (Response.ok r) eqn:K.
    + destruct (Z.eq_dec (Response.status r) 204) as [S | S].
      * rewrite (fetcher_no_content _ _ _ r T K S). split; [left; reflexivity |].
        simpl. rewrite elem_of_cons, elem_of_nil. split.
        -- intros [? | []]. discriminate.
        -- intros (r' & [= <-] & [? | ?]); [congruence | contradiction].
      * rewrite (fetcher_success _ _ _ r T K S). split; [right; reflexivity |].
        simpl. split; [eauto |]. intros _. set_solver.
    + rewrite (fetcher_not_ok _ _ _ r T K).
      split; [right; reflexivity |]. simpl. split; [eauto |]. intros _. set_solver.
  - rewrite (fetcher_rejected _ _ _ x T). split; [left; reflexivity |].
    simpl. rewrite elem_of_cons, elem_of_nil. split.
    + intros [? | []]. discriminate.
    + intros (r & ? & _). discriminate.
Qed.

Lemma fetcher_not_ok_outcome
    (fetch : string -> RequestInit.t -> completion Response.t)
    (endpoint : string) (options : option RequestOptions.t) (r : Response.t) :
  transport fetch endpoint options = Normal r ->
  Response.ok r = false ->
  (exists e,
     ApiError.new (ApiError.Options.mk (Response.status r) (extracted r)
                     (Some endpoint)) = Some e /\
     outcome (fetcher fetch endpoint options) = Abrupt (ThrownApiError e)) \/
  (ToString (extracted r) = None /\
   outcome (fetcher fetch endpoint options) = Abrupt TypeError_not_primitive).
Proof.
  intros T K. rewrite (fetcher_not_ok _ _ _ r T K).
  destruct (ApiError.new _) as [e |] eqn:N.
  - left. exists e. split; reflexivity.
  - right. apply new_none in N. split; [exact N | reflexivity].
Qed.


Lemma fetcher_first_event
    (fetch : string -> RequestInit.t -> completion Response.t)
    (endpoint : string) (o : RequestOptions.t) :
  exists asked,
    trace (fetcher fetch endpoint (Some o)) = Fetch endpoint (fetchOptions o) :: asked.
Proof.
  destruct (transport fetch endpoint (Some o)) as [r | y] eqn:T.
  - destruct (Response.ok r) eqn:K.
    + destruct (Z.eq_dec (Response.status r) 204) as [S | S].
      * rewrite (fetcher_no_content _ _ _ r T K S). eexists; reflexivity.
      * rewrite (fetcher_success _ _ _ r T K S). eexists; reflexivity.
    + rewrite (fetcher_not_ok _ _ _ r T K). eexists; reflexivity.
  - rewrite (fetcher_rejected _ _ _ y T). eexists; reflexivity.
Qed.



(** X4. A 2xx response whose body does not decode raises an error that no
    class test recognises and that has no known code. *)
Theorem malformed_success_is_unclassified
    (fetch : string -> RequestInit.t -> completion Response.t)
    (endpoint : string) (options : option RequestOptions.t)
    (r : Response.t) (x : thrown) :
  transport fetch endpoint options = Normal r ->
  Response.ok r = true ->
  200 <= Response.status r < 300 ->
  Response.status r <> 204 ->
  Response.json r = Abrupt x ->
  exists e,
    outcome (fetcher fetch endpoint options) = Abrupt (ThrownApiError e) /\
    ApiError.status e = Response.status r /\
    ApiError.isAuthError e = false /\
    ApiError.isClientError e = false /\
    ApiError.isServerError e = false /\
    ApiError.errorCode e = None.
Proof.
  intros T K R S J. rewrite (fetcher_success _ _ _ r T K S), J. eexists.
  split; [reflexivity |]. split; [reflexivity |].
  unfold ApiError.isAuthError, ApiError.isClientError, ApiError.isServerError.
  simpl. repeat split.
  - apply orb_false_iff. split; apply Z.eqb_neq; lia.
  - apply andb_false_iff. left. apply Z.leb_gt. lia.
  - apply andb_false_iff. left. apply Z.leb_gt. lia.
  - destruct (isKnownErrorCode (Response.status r)) eqn:N; [| reflexivity].
    apply isKnownErrorCode_spec in N. lia.
Qed.

(** X5. When a response with [ok = false] makes the call raise an
    [ApiError], the class and the known code of that error follow from the
    response's status alone, whatever message the body supplied. *)
Theorem error_class_follows_status
    (fetch : string -> RequestInit.t -> completion Response.t)
    (endpoint : string) (options : option RequestOptions.t)
    (r : Response.t) (e : ApiError.ApiError) :
  transport fetch endpoint options = Normal r ->
  Response.ok r = false ->
  outcome (fetcher fetch endpoint options) = Abrupt (ThrownApiError e) ->
  (ApiError.isAuthError e = true <->
     Response.status r = 401 \/ Response.status r = 403) /\
  (ApiError.isClientError e = true <-> 400 <= Response.status r < 500) /\
  (ApiError.isServerError e = true <-> 500 <= Response.status r < 600) /\
  (forall c, ApiError.errorCode e = Some c <->
     c = Response.status r /\ c ∈ known_codes).
Proof.
  intros T K O.
  destruct (fetcher_not_ok_outcome _ _ _ r T K) as [(e' & N & O') | (_ & O')];
    rewrite O' in O; [| discriminate].
  injection O as ->. apply new_some in N as (_ & S & _ & C).
  simpl in S, C.
  unfold ApiError.isAuthError, ApiError.isClientError, ApiError.isServerError.
  rewrite S, C.
  rewrite orb_true_iff, !andb_true_iff, !Z.eqb_eq, !Z.leb_le, !Z.ltb_lt.
  split; [tauto |]. split; [tauto |]. split; [tauto |].
  intros c. rewrite <- isKnownErrorCode_elem. split.
  - destruct (isKnownErrorCode (Response.status r)) eqn:N'; [| discriminate].
    intros [= <-]. split; [reflexivity | exact N'].
  - intros [-> N']. now rewrite N'.
Qed.

(** X6. Extracting the message of a response never throws and reads the
    body once; it yields [undefined] when the body does not decode or
    decodes to anything but an object, and for an object the [message]
    member unless that is [null] or [undefined], in which case the [error]
    member. *)
Theorem extractErrorMessage_never_throws (r : Response.t) :
  exists v,
    extractErrorMessage r = (Normal v, [ReadJson]) /\
    v = match Response.json r with
        | Normal (JObj props) =>
            if nullish (assoc "message" props) then assoc "error" props
            else assoc "message" props
        | _ => JUndefined
        end.
Proof.
  unfold extractErrorMessage, Response_json, perform.
  destruct (Response.json r) as [decoded | x]; simpl.
  - destruct decoded as [| | b | n safe | s | items | props]; simpl;
      try (eexists; split; reflexivity).
    unfold coalesce. destruct (nullish (assoc "message" props));
      eexists; split; reflexivity.
  - eexists; split; reflexivity.
Qed.

(** ** The error table and the constructor *)

(** X7. The message table has an entry for exactly the codes that
    [isKnownErrorCode] accepts, and no default message is empty. *)
Theorem message_table_covers_known_codes (s : Z) :
  (isKnownErrorCode s = true <-> is_Some (HTTP_ERROR_MESSAGE !! s)) /\
  ApiError.getDefaultMessage s <> "".
Proof.
  split.
  - rewrite isKnownErrorCode_spec. split.
    + intros [-> | [-> | [-> | [-> | ->]]]]; vm_compute; eauto.
    + intros [text H]. unfold HTTP_ERROR_MESSAGE in H.
      apply elem_of_list_to_map_2 in H. vm_compute in H.
      repeat (apply elem_of_cons in H; destruct H as [H | H];
              [injection H as -> _; tauto |]).
      now apply elem_of_nil in H.
  - unfold ApiError.getDefaultMessage.
    destruct (isKnownErrorCode s) eqn:K; [| discriminate].
    apply isKnownErrorCode_spec in K.
    destruct K as [-> | [-> | [-> | [-> | ->]]]]; vm_compute; discriminate.
Qed.

(** X8. A constructed error keeps the status and the endpoint it was given;
    a known code, when set, is the status and lies in the client or the
    server range; and every auth error has its known code set. *)
Theorem constructor_invariants (o : ApiError.Options.t) (e : ApiError.ApiError) :
  ApiError.new o = Some e ->
  ApiError.status e = ApiError.Options.status o /\
  ApiError.endpoint e = ApiError.Options.endpoint o /\
  (forall c, ApiError.errorCode e = Some c ->
     c = ApiError.status e /\
     (ApiError.isClientError e = true \/ ApiError.isServerError e = true)) /\
  (ApiError.isAuthError e = true -> ApiError.errorCode e = Some (ApiError.status e)).
Proof.
  intros N. apply new_some in N as (_ & S & E & C).
  split; [exact S |]. split; [exact E |].
  unfold ApiError.isAuthError, ApiError.isClientError, ApiError.isServerError.
  rewrite C, S. split.
  - intros c. destruct (isKnownErrorCode (ApiError.Options.status o)) eqn:K;
      [| discriminate].
    intros [= <-]. split; [reflexivity |].
    apply isKnownErrorCode_spec in K.
    rewrite !andb_true_iff, !Z.leb_le, !Z.ltb_lt. lia.
  - rewrite orb_true_iff, !Z.eqb_eq. intros H.
    assert (K : isKnownErrorCode (ApiError.Options.status o) = true).
    { apply isKnownErrorCode_spec. tauto. }
    now rewrite K.
Qed.

(** X18. A response with [ok = false] whose body has the expected shape
    (it does not decode, is no object, or is an object whose [message] and
    [error] members are strings or nothing) makes the call raise an
    [ApiError] for the endpoint, with the response's status and with the
    message chosen in this order: the [message] string, else the [error]
    string, else the table text of a known status, else the generic text. *)
Theorem expected_error_body_message
    (fetch : string -> RequestInit.t -> completion Response.t)
    (endpoint : string) (options : option RequestOptions.t) (r : Response.t) :
  transport fetch endpoint options = Normal r ->
  Response.ok r = false ->
  as_expected r = true ->
  exists e,
    outcome (fetcher fetch endpoint options) = Abrupt (ThrownApiError e) /\
    ApiError.status e = Response.status r /\
    ApiError.endpoint e = Some endpoint /\
    ApiError.message e = error_message r.
Proof.
  intros T K H. rewrite (fetcher_not_ok _ _ _ r T K).
  unfold as_expected in H. unfold error_message, text_member, extracted.
  destruct (Response.json r) as [decoded | x].
  - destruct decoded as [| | b | n safe | s | items | props];
      try (rewrite new_default by reflexivity; eexists; repeat split).
    apply andb_true_iff in H as [Hm He].
    destruct (assoc "message" props); try discriminate;
      destruct (assoc "error" props); try discriminate;
      rewrite ?new_text; rewrite ?new_default by reflexivity;
      eexists; repeat split.
  - rewrite new_default by reflexivity. eexists; repeat split.
Qed.

(** ** The client builder *)

Lemma strip_trailing_slash_app (b : string) :
  httpClient.strip_trailing_slash (b +:+ "/") = b.
Proof.
  induction b as [| c b IH]; [reflexivity |].
  change (httpClient.strip_trailing_slash (String c (b +:+ "/")) = String c b).
  simpl. replace (String.eqb (b +:+ "/") "") with false.
  - rewrite andb_false_r. now f_equal.
  - destruct b; reflexivity.
Qed.

Lemma strip_trailing_slash_id (b : string) :
  (forall b', b <> b' +:+ "/") -> httpClient.strip_trailing_slash b = b.
Proof.
  induction b as [| c b IH]; [reflexivity |]. intros N. simpl.
  destruct (Ascii.eqb c "/" && String.eqb b "") eqn:E.
  - apply andb_true_iff in E as [Ec Eb].
    apply Ascii.eqb_eq in Ec. apply String.eqb_eq in Eb. subst.
    now destruct (N "").
  - f_equal. apply IH. intros b' ->. now apply (N (String c b')).
Qed.

Lemma no_final_slash (b : string) :
  httpClient.strip_trailing_slash b = b -> forall b', b <> b' +:+ "/".
Proof.
  intros E b' ->. rewrite strip_trailing_slash_app in E.
  induction b' as [| c b' IH]; [discriminate |].
  injection E as E. auto.
Qed.

Lemma startsWith_slash (p : string) :
  httpClient.startsWith ("/" +:+ p) "/" = true /\
  httpClient.startsWith ("/" +:+ p) "http://" = false /\
  httpClient.startsWith ("/" +:+ p) "https://" = false.
Proof.
  unfold httpClient.startsWith. repeat split. simpl. now destruct p.
Qed.

Lemma buildURL_relative (config : httpClient.HttpClientConfig) (p : string) :
  httpClient.startsWith p "http://" = false ->
  httpClient.startsWith p "https://" = false ->
  httpClient.buildURL config p
  = httpClient.strip_trailing_slash (httpClient.baseURL config)
    +:+ (if httpClient.startsWith p "/" then p else "/" +:+ p).
Proof.
  intros H1 H2. unfold httpClient.buildURL. now rewrite H1, H2.
Qed.

(** X9. A relative path is joined to the base URL with exactly one slash,
    whether or not the base ends in a slash and the path starts with one;
    of several final slashes of the base only the last is dropped. *)
Theorem buildURL_joins_with_one_slash
    (b p : string) (defaults : option (gmap string string)) :
  httpClient.startsWith p "/" = false ->
  httpClient.startsWith p "http://" = false ->
  httpClient.startsWith p "https://" = false ->
  httpClient.buildURL (httpClient.mkConfig (b +:+ "/") defaults) p
    = b +:+ "/" +:+ p /\
  httpClient.buildURL (httpClient.mkConfig (b +:+ "/") defaults) ("/" +:+ p)
    = b +:+ "/" +:+ p /\
  ((forall b', b <> b' +:+ "/") ->
   httpClient.buildURL (httpClient.mkConfig b defaults) p = b +:+ "/" +:+ p /\
   httpClient.buildURL (httpClient.mkConfig b defaults) ("/" +:+ p)
     = b +:+ "/" +:+ p).
Proof.
  intros S H1 H2. destruct (startsWith_slash p) as (S' & H1' & H2').
  rewrite !(buildURL_relative _ p H1 H2), !(buildURL_relative _ _ H1' H2').
  rewrite S, S'. cbn [httpClient.baseURL].
  rewrite strip_trailing_slash_app.
  split; [reflexivity |]. split; [reflexivity |].
  intros N. rewrite (strip_trailing_slash_id b N). split; reflexivity.
Qed.

Lemma buildURL_absolute (config : httpClient.HttpClientConfig) (endpoint : string) :
  httpClient.startsWith endpoint "http://" = true \/
  httpClient.startsWith endpoint "https://" = true ->
  httpClient.buildURL config endpoint = endpoint.
Proof.
  unfold httpClient.buildURL.
  intros [-> | ->]; [reflexivity | now rewrite orb_true_r].
Qed.

(** X10. A verb called with an absolute http or https URL sends the
    request to that URL itself: the base URL of the client plays no part. *)
Theorem absolute_endpoint_bypasses_base
    (fetch : string -> RequestInit.t -> completion Response.t)
    (config : httpClient.HttpClientConfig) (endpoint : string)
    (body : option RequestBody) (options : option httpClient.ClientOptions.t) :
  httpClient.startsWith endpoint "http://" = true \/
  httpClient.startsWith endpoint "https://" = true ->
  forall call,
    call ∈ [ httpClient.get fetch config endpoint options;
             httpClient.post fetch config endpoint body options;
             httpClient.put fetch config endpoint body options;
             httpClient.patch fetch config endpoint body options;
             httpClient.delete_ fetch config endpoint options ] ->
    exists init asked, trace call = Fetch endpoint init :: asked.
Proof.
  intros A call In.
  unfold httpClient.get, httpClient.post, httpClient.put, httpClient.patch,
    httpClient.delete_ in In.
  rewrite (buildURL_absolute config endpoint A) in In.
  repeat (apply elem_of_cons in In; destruct In as [-> | In];
          [eexists; apply fetcher_first_event |]).
  now apply elem_of_nil in In.
Qed.

(** X11. Header precedence through the client: a header of the call wins
    over the client's default header of the same name, which wins over the
    injected Content-Type: application/json; for a multipart payload
    nothing is injected. *)
Theorem client_header_precedence
    (fetch : string -> RequestInit.t -> completion Response.t)
    (config : httpClient.HttpClientConfig) (endpoint : string)
    (body : option RequestBody) (options : option httpClient.ClientOptions.t) :
  let custom : gmap string string := default ∅ (httpClient.headers_of options) in
  let defaults : gmap string string :=
    default ∅ (httpClient.defaultHeaders config) in
  exists init asked,
    trace (httpClient.post fetch config endpoint body options)
      = Fetch (httpClient.buildURL config endpoint) init :: asked /\
    forall k,
      RequestInit.headers init !! k =
        match custom !! k with
        | Some v => Some v
        | None =>
            match defaults !! k with
            | Some v => Some v
            | None =>
                match body with
                | Some (FormDataBody _) => None
                | _ => DEFAULT_HEADERS !! k
                end
            end
        end.
Proof.
  intros custom defaults. unfold httpClient.post.
  destruct (fetcher_first_event fetch (httpClient.buildURL config endpoint)
    {| RequestOptions.method := Some "POST";
       RequestOptions.rest := httpClient.rest_of options;
       RequestOptions.headers :=
         Some (httpClient.mergeHeaders config (httpClient.headers_of options));
       RequestOptions.body := httpClient.toRequestBody body |}) as (asked & E).
  eexists _, asked. split; [exact E |]. intros k.
  unfold fetchOptions, createHeaders, httpClient.mergeHeaders. simpl.
  fold custom defaults.
  destruct body as [[props | fd] |]; simpl;
    rewrite !spread_lookup; try rewrite lookup_empty;
    destruct (custom !! k), (defaults !! k); reflexivity.
Qed.

Lemma serializeBody_toRequestBody (body : option RequestBody) :
  serializeBody (httpClient.toRequestBody body) = serializeBody body.
Proof. destruct body as [[props | fd] |]; reflexivity. Qed.

(** X12. Each verb sends one request to the built URL under its own HTTP
    method, passing the other options through; GET and DELETE send no body,
    POST, PUT and PATCH send the given body encoded as by the executor
    (none when no body is given). *)
Theorem verbs_send_their_method
    (fetch : string -> RequestInit.t -> completion Response.t)
    (config : httpClient.HttpClientConfig) (endpoint : string)
    (body : option RequestBody) (options : option httpClient.ClientOptions.t) :
  let sends (call : Eff jsval) (verb : string) (sent : option BodyInit) : Prop :=
    exists init asked,
      trace call = Fetch (httpClient.buildURL config endpoint) init :: asked /\
      RequestInit.method init = Some verb /\
      RequestInit.body init = sent /\
      RequestInit.rest init = httpClient.rest_of options in
  sends (httpClient.get fetch config endpoint options) "GET" None /\
  sends (httpClient.post fetch config endpoint body options) "POST"
        (serializeBody body) /\
  sends (httpClient.put fetch config endpoint body options) "PUT"
        (serializeBody body) /\
  sends (httpClient.patch fetch config endpoint body options) "PATCH"
        (serializeBody body) /\
  sends (httpClient.delete_ fetch config endpoint options) "DELETE" None.
Proof.
  intros sends. subst sends. simpl.
  unfold httpClient.get, httpClient.post, httpClient.put, httpClient.patch,
    httpClient.delete_.
  repeat split;
    match goal with
    | |- exists init asked, trace (fetcher ?f ?u (Some ?o)) = _ /\ _ =>
        destruct (fetcher_first_event f u o) as (asked & E);
        eexists _, asked; split; [exact E |]; simpl;
        rewrite ?serializeBody_toRequestBody; repeat split
    end.
Qed.


(** ** The example API functions *)

Lemma user_path_url (env : option string) (path : string) :
  httpClient.buildURL (httpClient.apiClient env) ("/" +:+ path)
  = httpClient.strip_trailing_slash (default "/api" env) +:+ "/" +:+ path.
Proof.
  destruct (startsWith_slash path) as (S & H1 & H2).
  rewrite (buildURL_relative _ _ H1 H2), S. reflexivity.
Qed.

Lemma apiClient_headers (env : option string) (body : option RequestBody) :
  createHeaders (Some (httpClient.mergeHeaders (httpClient.apiClient env) None)) body
  = match body with
    | Some (FormDataBody _) => ∅
    | _ => DEFAULT_HEADERS
    end.
Proof.
  unfold httpClient.mergeHeaders, createHeaders. simpl.
  rewrite !spread_empty. unfold spread.
  destruct body as [[props | fd] |]; try reflexivity; apply (left_id ∅ (∪)).
Qed.

(** X14. The user queries go to the base URL of the environment, /api when
    it is not set, with one final slash of the base dropped: a GET of
    /users, a GET of /users/<id> and a DELETE of /users/<id>, each without a
    body and with Content-Type: application/json as its only header. *)
Theorem user_requests
    (fetch : string -> RequestInit.t -> completion Response.t)
    (env : option string) (id : Z) :
  let base := httpClient.strip_trailing_slash (default "/api" env) in
  let sends (call : Eff jsval) (verb url : string) : Prop :=
    exists init asked,
      trace call = Fetch url init :: asked /\
      RequestInit.method init = Some verb /\
      RequestInit.body init = None /\
      RequestInit.headers init = {[ "Content-Type" := "application/json" ]} in
  sends (example.getUsers fetch env) "GET" (base +:+ "/users") /\
  sends (example.getUser fetch env id) "GET" (base +:+ "/users/" +:+ pretty id) /\
  sends (example.deleteUser fetch env id) "DELETE"
        (base +:+ "/users/" +:+ pretty id).
Proof.
  intros base sends. subst base sends. simpl.
  unfold example.getUsers, example.getUser, example.deleteUser,
    httpClient.get, httpClient.delete_.
  change ("/users/" +:+ pretty id) with ("/" +:+ "users/" +:+ pretty id).
  change "/users" with ("/" +:+ "users").
  rewrite !user_path_url.
  repeat split;
    match goal with
    | |- exists init asked, trace (fetcher ?f ?u (Some ?o)) = _ /\ _ =>
        destruct (fetcher_first_event f u o) as (asked & E);
        eexists _, asked; split; [exact E |];
        split; [reflexivity |]; split; [reflexivity |];
        apply (apiClient_headers env None)
    end.
Qed.


(** X16. Creating a user POSTs the JSON text of the data to /users under
    the base URL, and updating a user PATCHes it to /users/<id>, both with
    Content-Type: application/json as the only header. *)
Theorem user_writes
    (fetch : string -> RequestInit.t -> completion Response.t)
    (env : option string) (id : Z) (data : list (string * jsval)) :
  let base := httpClient.strip_trailing_slash (default "/api" env) in
  let sends (call : Eff jsval) (verb url : string) : Prop :=
    exists init asked,
      trace call = Fetch url init :: asked /\
      RequestInit.method init = Some verb /\
      RequestInit.body init = Some (BodyText (JSON_stringify data)) /\
      RequestInit.headers init = {[ "Content-Type" := "application/json" ]} in
  sends (example.createUser fetch env data) "POST" (base +:+ "/users") /\
  sends (example.updateUser fetch env id data) "PATCH"
        (base +:+ "/users/" +:+ pretty id).
Proof.
  intros base sends. subst base sends. simpl.
  unfold example.createUser, example.updateUser, httpClient.post, httpClient.patch.
  change ("/users/" +:+ pretty id) with ("/" +:+ "users/" +:+ pretty id).
  change "/users" with ("/" +:+ "users").
  rewrite !user_path_url.
  repeat split;
    match goal with
    | |- exists init asked, trace (fetcher ?f ?u (Some ?o)) = _ /\ _ =>
        destruct (fetcher_first_event f u o) as (asked & E);
        eexists _, asked; split; [exact E |];
        split; [reflexivity |]; split; [reflexivity |];
        apply (apiClient_headers env (Some (JsonBody data)))
    end.
Qed.

(** ** The demo component *)


(** ** The further properties at inputs of the test suite *)



Lemma malformed_success_is_unclassified_witness :
  exists e,
    outcome (fetcher
               (resolves (Response.mk true 200 (Abrupt (ThrownError "Unexpected token"))))
               "/api/users/1" None)
      = Abrupt (ThrownApiError e) /\
    ApiError.status e = 200 /\
    ApiError.isAuthError e = false /\
    ApiError.isClientError e = false /\
    ApiError.isServerError e = false /\
    ApiError.errorCode e = None.
Proof.
  apply (malformed_success_is_unclassified
           (resolves (Response.mk true 200 (Abrupt (ThrownError "Unexpected token"))))
           "/api/users/1" None
           (Response.mk true 200 (Abrupt (ThrownError "Unexpected token")))
           (ThrownError "Unexpected token"));
    simpl; first [reflexivity | lia].
Defined.

Lemma error_class_follows_status_witness :
  ApiError.isClientError
    (ApiError.mkApiError "ApiError" "리소스를 찾을 수 없습니다." 404 (Some 404)
       (Some "/api/users/999")) = true /\
  ApiError.errorCode
    (ApiError.mkApiError "ApiError" "리소스를 찾을 수 없습니다." 404 (Some 404)
       (Some "/api/users/999")) = Some 404.
Proof.
  destruct (error_class_follows_status (resolves not_found) "/api/users/999" None
              not_found
              (ApiError.mkApiError "ApiError" "리소스를 찾을 수 없습니다." 404
                 (Some 404) (Some "/api/users/999"))
              eq_refl eq_refl eq_refl) as (_ & C & _ & K).
  split.
  - apply C. simpl. lia.
  - apply K. split; [reflexivity |]. apply isKnownErrorCode_elem. reflexivity.
Defined.

Lemma constructor_invariants_witness :
  ApiError.status
    (ApiError.mkApiError "ApiError" "토큰이 만료되었습니다." 401 (Some 401) None)
  = 401 /\
  ApiError.errorCode
    (ApiError.mkApiError "ApiError" "토큰이 만료되었습니다." 401 (Some 401) None)
  = Some 401.
Proof.
  destruct (constructor_invariants
              (ApiError.Options.mk 401 (JStr "토큰이 만료되었습니다.") None)
              (ApiError.mkApiError "ApiError" "토큰이 만료되었습니다." 401
                 (Some 401) None)
              eq_refl) as (S & _ & _ & A).
  split; [exact S |]. apply A. reflexivity.
Defined.

Lemma expected_error_body_message_witness :
  exists e,
    outcome (fetcher (resolves not_found) "/api/users/999" None)
      = Abrupt (ThrownApiError e) /\
    ApiError.status e = 404 /\
    ApiError.endpoint e = Some "/api/users/999" /\
    ApiError.message e = "리소스를 찾을 수 없습니다.".
Proof.
  apply (expected_error_body_message (resolves not_found) "/api/users/999" None
           not_found); reflexivity.
Defined.

Lemma buildURL_joins_with_one_slash_witness :
  httpClient.buildURL (httpClient.mkConfig "https://api.example.com/" None) "users"
    = "https://api.example.com/users" /\
  httpClient.buildURL (httpClient.mkConfig "https://api.example.com" None) "/users"
    = "https://api.example.com/users".
Proof.
  destruct (buildURL_joins_with_one_slash "https://api.example.com" "users" None
              eq_refl eq_refl eq_refl) as (A & _ & B).
  split; [exact A |]. apply B.
  apply no_final_slash. reflexivity.
Defined.

Lemma absolute_endpoint_bypasses_base_witness :
  exists init asked,
    trace (httpClient.get (resolves user_ok) (httpClient.apiClient None)
             "https://other.example.com/users/1" None)
    = Fetch "https://other.example.com/users/1" init :: asked.
Proof.
  apply (absolute_endpoint_bypasses_base (resolves user_ok)
           (httpClient.apiClient None) "https://other.example.com/users/1"
           None None).
  - right. reflexivity.
  - apply elem_of_cons. left. reflexivity.
Defined.


